(** * BudgetOverview: the computations of the budget overview component

    A shallow embedding of the arithmetic and of the selection state of
    [src/components/Budget/BudgetOverview.tsx]:

    - [calculateTotalDebt] and [calculateBillsForCurrentPeriod], the two
      aggregate functions of the component;
    - the per-category values computed while rendering the progress bars
      ([budgetAmount], [percentage], [isOverBudget], the bar width);
    - the per-bill prorated amount of the "Bills for Current Period" list;
    - the budget selection: the auto-select effect and the [onChange]
      handler of the [<select>] element, with the value and the options
      the element is rendered with;
    - the line under each category bar, the "+N more bills" line and the
      effect that sets the current period line of the header.

    Modelling choices.
    - A JavaScript [number] holding a currency amount or a day count is an
      exact rational ([Q]); the constants [4.33] and [30.44] are the
      decimals the source writes.  Rounding of IEEE-754 doubles, [NaN] and
      the infinities are outside the model.  Equality of amounts is [Qeq].
    - A value that may be [undefined] (a live query still loading, an
      optional field) is an [option]; [null] state is [None] as well.
    - A [Date] is its time value, [getTime()], in milliseconds.
    - A call that may throw returns a [completion]; [try]/[catch] is a
      match on it.
    - [getCurrentMonthlyPeriod] lives in [utils/dateUtils], outside this
      file of the repository: it is a parameter of the definitions that
      call it, together with the type of its configuration argument. *)

From Stdlib Require Import QArith Qround Qminmax Qabs ZArith.
From Stdlib Require Import List String Bool Lqa Lia Permutation.
Import ListNotations.

Open Scope Q_scope.

(** ** JavaScript operators used by the component *)

Module JS.

(** Outcome of evaluating an expression that may throw. *)
Inductive completion (A : Type) : Type :=
  | Normal (value : A)
  | Throw (err : string).
Arguments Normal {A} value.
Arguments Throw {A} err.

(** [ToBoolean] on a number: every number but zero is truthy. *)
Definition truthy (x : Q) : bool := negb (Qeq_bool x 0).

(** [x || y] where [x] is a number or [undefined] and [y] a number. *)
Definition or (x : option Q) (y : Q) : Q :=
  match x with
  | Some v => if truthy v then v else y
  | None => y
  end.

(** [x > y] on numbers. *)
Definition gt (x y : Q) : bool :=
  match x ?= y with
  | Gt => true
  | _ => false
  end.

(** [Math.ceil] and [Math.min]. *)
Definition Math_ceil (x : Q) : Q := inject_Z (Qceiling x).
Definition Math_min (x y : Q) : Q := Qmin x y.

End JS.

Import JS.

(** ** Records read by the component *)

Record Date : Type := { getTime : Z }.

Record Period : Type := { startDate : Date; endDate : Date }.

Module Bill.
Record t : Type :=
  { id : string; name : string; amount : Q; frequency : string }.
End Bill.

Module Debt.
Record t : Type := { id : string; currentBalance : Q }.
End Debt.

Module Budget.
Record t : Type := { id : string; name : string; year : Z }.
End Budget.

(** A budget category as the calculation hook returns it: the
  [periodAllocatedAmount] field exists only on a
  [PeriodAdjustedBudgetCategory]. *)
Module Category.
Record t : Type :=
  { id : string;
    name : string;
    allocatedAmount : Q;
    spentAmount : Q;
    periodAllocatedAmount : option Q }.
End Category.

(** ** Sum of a list of amounts, used to state the aggregates *)

Definition Qsum (l : list Q) : Q := fold_right Qplus 0 l.

(** ** calculateTotalDebt (lines 69-71)

    [debts?.reduce((sum, debt) => sum + debt.currentBalance, 0) || 0] *)

Definition calculateTotalDebt (debts : option (list Debt.t)) : Q :=
  JS.or
    (option_map
       (fun debts =>
          fold_left (fun sum debt => sum + Debt.currentBalance debt) debts 0)
       debts)
    0.

(** ** calculateBillsForCurrentPeriod (lines 73-117) *)

(** The [switch] of lines 85-100, which sets the reducer's local
    [monthlyAmount] from the bill. *)
Definition monthlyAmount (bill : Bill.t) : Q :=
  if (Bill.frequency bill =? "monthly")%string then Bill.amount bill
  else if (Bill.frequency bill =? "weekly")%string then Bill.amount bill * 4.33
  else if (Bill.frequency bill =? "quarterly")%string then Bill.amount bill / 3
  else if (Bill.frequency bill =? "yearly")%string then Bill.amount bill / 12
  else 0.

Section PeriodBills.

Variable MonthlyCycleConfig : Type.
Variable getCurrentMonthlyPeriod : MonthlyCycleConfig -> completion Period.
Variable monthlyCycleConfig : MonthlyCycleConfig.

Definition calculateBillsForCurrentPeriod (bills : option (list Bill.t)) : Q :=
  match bills with
  | None => 0
  | Some bills =>
    if (List.length bills =? 0)%nat then 0
    else
      match getCurrentMonthlyPeriod monthlyCycleConfig with
      | Normal period =>
        let periodDays :=
          Math_ceil
            (inject_Z (getTime (endDate period) - getTime (startDate period))
             / inject_Z (1000 * 60 * 60 * 24)) + 1 in
        let averageMonthDays := 30.44 in
        let periodRatio := periodDays / averageMonthDays in
        fold_left
          (fun sum bill => sum + monthlyAmount bill * periodRatio)
          bills 0
      | Throw _ =>
        fold_left
          (fun sum bill =>
             if (Bill.frequency bill =? "monthly")%string
             then sum + Bill.amount bill
             else if (Bill.frequency bill =? "weekly")%string
             then sum + Bill.amount bill * 4.33
             else if (Bill.frequency bill =? "quarterly")%string
             then sum + Bill.amount bill / 3
             else if (Bill.frequency bill =? "yearly")%string
             then sum + Bill.amount bill / 12
             else sum)
          bills 0
      end
  end.

(** ** The per-bill list (lines 313-351)

    [periodAmount] is the local of the [map] callback; the list shows the
    first five bills, each with its name and its [periodAmount]. *)

Definition periodAmount (bill : Bill.t) : Q :=
  match getCurrentMonthlyPeriod monthlyCycleConfig with
  | Normal period =>
    let periodDays :=
      Math_ceil
        (inject_Z (getTime (endDate period) - getTime (startDate period))
         / inject_Z (1000 * 60 * 60 * 24)) + 1 in
    let averageMonthDays := 30.44 in
    let periodRatio := periodDays / averageMonthDays in
    let monthlyAmount :=
      if (Bill.frequency bill =? "monthly")%string then Bill.amount bill
      else if (Bill.frequency bill =? "weekly")%string
      then Bill.amount bill * 4.33
      else if (Bill.frequency bill =? "quarterly")%string
      then Bill.amount bill / 3
      else if (Bill.frequency bill =? "yearly")%string
      then Bill.amount bill / 12
      else Bill.amount bill in
    monthlyAmount * periodRatio
  | Throw _ => Bill.amount bill
  end.

Definition billRows (bills : option (list Bill.t)) : list (string * Q) :=
  match bills with
  | None => []
  | Some bills =>
    if (0 <? List.length bills)%nat
    then map (fun bill => (Bill.name bill, periodAmount bill))
             (firstn 5 bills)
    else []
  end.

End PeriodBills.

Arguments calculateBillsForCurrentPeriod {MonthlyCycleConfig}.
Arguments periodAmount {MonthlyCycleConfig}.
Arguments billRows {MonthlyCycleConfig}.

(** ** Budget category progress (lines 259-281) *)

Definition budgetAmount (category : Category.t) : Q :=
  JS.or (Category.periodAllocatedAmount category)
        (Category.allocatedAmount category).

Definition percentage (category : Category.t) : Q :=
  if JS.gt (budgetAmount category) 0
  then Category.spentAmount category / budgetAmount category * 100
  else 0.

Definition isOverBudget (category : Category.t) : bool :=
  JS.gt (percentage category) 100.

(** The [width] of the inner bar, in percent (line 281). *)
Definition barWidth (category : Category.t) : Q :=
  Math_min (percentage category) 100.

(** ** Budget selection (lines 16, 19, 43-47, 155-160) *)

Record State : Type :=
  { budgets : option (list Budget.t);
    selectedBudget : option Budget.t }.

Definition setSelectedBudget (s : State) (b : option Budget.t) : State :=
  {| budgets := budgets s; selectedBudget := b |}.

(** The live query delivers a new result for [budgets]. *)
Definition receiveBudgets (s : State) (result : option (list Budget.t))
  : State :=
  {| budgets := result; selectedBudget := selectedBudget s |}.

(** Truthiness of the selection: [null] is falsy, a budget object truthy. *)
Definition isSome (b : option Budget.t) : bool :=
  match b with
  | Some _ => true
  | None => false
  end.

(** Body of the auto-select effect (lines 43-47). *)
Definition autoSelect (s : State) : State :=
  match budgets s with
  | Some bs =>
    if (0 <? List.length bs)%nat && negb (isSome (selectedBudget s))
    then setSelectedBudget s (nth_error bs 0)
    else s
  | None => s
  end.

(** [onChange] of the select element (lines 157-160); the element is rendered
    only when [budgets] is a non-empty list (line 150). *)
Definition onChange (s : State) (value : string) : State :=
  match budgets s with
  | Some bs =>
    if (0 <? List.length bs)%nat
    then setSelectedBudget s
           (find (fun b => (Budget.id b =? value)%string) bs)
    else s
  | None => s
  end.

(** What the component reacts to, and one reaction: a new query result or a
    user choice updates the state, then the effect runs. *)
Inductive Event : Type :=
| BudgetsLoaded (result : option (list Budget.t))
| Chosen (value : string).

Definition handle (s : State) (e : Event) : State :=
  match e with
  | BudgetsLoaded result => receiveBudgets s result
  | Chosen value => onChange s value
  end.

Definition react (s : State) (e : Event) : State := autoSelect (handle s e).

(** A sequence of events, each followed by the effect. *)
Definition run (s : State) (events : list Event) : State :=
  fold_left react events s.

(** ** What is rendered from the selection (lines 133, 150-168, 183) *)

(** [x || y] on strings: the empty string is falsy. *)
Definition or_string (x : option string) (y : string) : string :=
  match x with
  | Some v => if (v =? "")%string then y else v
  | None => y
  end.

(** The condition of line 150, under which the select element is rendered
    (and the "no budgets" panel is not). *)
Definition hasBudgets (s : State) : bool :=
  match budgets s with
  | Some bs => (0 <? List.length bs)%nat
  | None => false
  end.

(** The [value] of the select element, [selectedBudget?.id || ''], and the
    [value] and label of its options. *)
Definition selectValue (s : State) : string :=
  or_string (option_map Budget.id (selectedBudget s)) "".

Definition selectOptions (s : State) : list (string * string) :=
  match budgets s with
  | Some bs =>
    if (0 <? List.length bs)%nat
    then map (fun budget => (Budget.id budget, Budget.name budget)) bs
    else []
  | None => []
  end.

(** ** The line under a category bar (lines 288-291)

    Whether the line reads "over budget" ([true]) or "remaining"
    ([false]), and the amount it shows. *)
Definition budgetLine (category : Category.t) : bool * Q :=
  if isOverBudget category
  then (true, Category.spentAmount category - budgetAmount category)
  else (false, budgetAmount category - Category.spentAmount category).

(** ** The "+N more bills" line (lines 313, 345-349) *)
Definition moreBills (bills : option (list Bill.t)) : option nat :=
  match bills with
  | None => None
  | Some bills =>
    if (0 <? List.length bills)%nat && (5 <? List.length bills)%nat
    then Some (List.length bills - 5)%nat
    else None
  end.

(** ** The current period line of the header (lines 17, 50-67, 129-131)

    [toLocaleDateString] stands for the call with locale ['en-GB'] and the
    options [{ day: 'numeric', month: 'short' }]; what it prints depends on
    the time zone of the browser, so it is a parameter. *)

Section PeriodInfo.

Variable MonthlyCycleConfig : Type.
Variable getCurrentMonthlyPeriod : MonthlyCycleConfig -> completion Period.
Variable monthlyCycleConfig : MonthlyCycleConfig.
Variable toLocaleDateString : Date -> string.

(** Body of the effect: the new value of the state [currentPeriodInfo]. *)
Definition updateCurrentPeriodInfo (preferencesLoading : bool)
           (currentPeriodInfo : string) : string :=
  if negb preferencesLoading
  then
    match getCurrentMonthlyPeriod monthlyCycleConfig with
    | Normal period =>
      let startStr := toLocaleDateString (startDate period) in
      let endStr := toLocaleDateString (endDate period) in
      ("Current period: " ++ startStr ++ " - " ++ endStr)%string
    | Throw _ => "Current period: Standard monthly cycle"%string
    end
  else currentPeriodInfo.

End PeriodInfo.

Arguments updateCurrentPeriodInfo {MonthlyCycleConfig}.

(** The line is rendered when the state is a non-empty string
    (line 129). *)
Definition periodInfoShown (currentPeriodInfo : string) : bool :=
  negb (currentPeriodInfo =? "")%string.

(** ** The vocabulary of the specification

    The specification names the inclusive day count of a period and its
    ratio to the average month; the two definitions below follow its words
    and are compared with the code by the theorems. *)

Definition msPerDay : Z := 86400000.

Definition periodDays_spec (p : Period) : Q :=
  inject_Z
    (Qceiling
       (inject_Z (getTime (endDate p) - getTime (startDate p))
        / inject_Z msPerDay))
  + 1.

Definition periodRatio_spec (p : Period) : Q := periodDays_spec p / 30.44.

(** The frequencies the switch statements recognise. *)
Definition recognised (frequency : string) : Prop :=
  frequency = "monthly"%string \/ frequency = "weekly"%string \/
  frequency = "quarterly"%string \/ frequency = "yearly"%string.

(** ** Sample data *)

Definition date (ms : Z) : Date := {| getTime := ms |}.

(** 1 to 7 January 2024 (UTC midnights): seven days, both ends included. *)
Definition firstWeekOf2024 : Period :=
  {| startDate := date 1704067200000; endDate := date 1704585600000 |}.

Definition periodIs (p : Period) : unit -> completion Period :=
  fun _ => Normal p.

Definition periodFails : unit -> completion Period :=
  fun _ => Throw "Invalid monthly cycle configuration".

Definition bill (name : string) (amount : Q) (frequency : string) : Bill.t :=
  {| Bill.id := name; Bill.name := name;
     Bill.amount := amount; Bill.frequency := frequency |}.

Definition cleaner : Bill.t := bill "Cleaner" 100 "weekly".
Definition rent : Bill.t := bill "Rent" 950 "monthly".
Definition insurance : Bill.t := bill "Insurance" 240 "yearly".
Definition freeTrial : Bill.t := bill "Free trial" 0 "weekly".

Definition category (allocated spent : Q) (periodAllocated : option Q)
  : Category.t :=
  {| Category.id := "c1"; Category.name := "Groceries";
     Category.allocatedAmount := allocated;
     Category.spentAmount := spent;
     Category.periodAllocatedAmount := periodAllocated |}.

Definition budget (id : string) : Budget.t :=
  {| Budget.id := id; Budget.name := id; Budget.year := 2024 |}.

Definition household : Budget.t := budget "household".
Definition holiday : Budget.t := budget "holiday".

Definition nothingLoaded : State :=
  {| budgets := None; selectedBudget := None |}.

Definition householdSelected : State :=
  {| budgets := Some [household; holiday];
     selectedBudget := Some household |}.


(** 1 January 2024 at midnight to 7 January 2024 at 23:59:59.999. *)
Definition firstWeekToEndOfDay : Period :=
  {| startDate := date 1704067200000; endDate := date 1704671999999 |}.

Definition carTax : Bill.t := bill "Car tax" 180 "biannual".

Definition debt (id : string) (balance : Q) : Debt.t :=
  {| Debt.id := id; Debt.currentBalance := balance |}.

Definition sixBills : list Bill.t :=
  [rent; cleaner; insurance; carTax; freeTrial; bill "Water" 35 "quarterly"].

Definition dayAndMonth (d : Date) : string :=
  if (getTime d <? 1704153600000)%Z then "1 Jan" else "7 Jan".

Definition loan : Debt.t := debt "loan" 5200.
Definition card : Debt.t := debt "card" 310.5.

(** * Properties *)

(** ** Helper lemmas on reducers and operators *)

(** A [reduce] whose callback adds [g x] to the accumulator computes the
    initial value plus the sum of the [g x]. *)
Lemma fold_left_adds (A : Type) (f : Q -> A -> Q) (g : A -> Q) :
  (forall sum x, f sum x == sum + g x) ->
  forall l init, fold_left f l init == init + Qsum (map g l).
Proof.
  intros Hf l. induction l as [| x l IH]; intros init; simpl.
  - ring.
  - rewrite IH, Hf. ring.
Qed.

Lemma Qsum_app (l l' : list Q) : Qsum (l ++ l') == Qsum l + Qsum l'.
Proof.
  induction l as [| x l IH]; simpl.
  - ring.
  - rewrite IH. ring.
Qed.

Lemma truthy_false_zero (x : Q) : truthy x = false -> x == 0.
Proof.
  unfold truthy. intros H. apply negb_false_iff in H.
  now apply Qeq_bool_iff.
Qed.

Lemma truthy_true_nonzero (x : Q) : truthy x = true -> ~ x == 0.
Proof.
  unfold truthy. intros H Hx. apply negb_true_iff in H.
  apply Qeq_bool_iff in Hx. congruence.
Qed.

Lemma gt_true_iff (x y : Q) : JS.gt x y = true <-> y < x.
Proof.
  unfold JS.gt. rewrite Qgt_alt.
  destruct (x ?= y); split; intros H; congruence.
Qed.

Lemma gt_false_iff (x y : Q) : JS.gt x y = false <-> x <= y.
Proof.
  rewrite <- not_true_iff_false, gt_true_iff. split.
  - apply Qnot_lt_le.
  - apply Qle_not_lt.
Qed.

(** The day count of the specification is the number of elapsed days
    rounded up to a whole number, plus one: it exceeds the elapsed days by
    at least 1 and by less than 2, and it is [d + 1] after exactly [d]
    days. *)
Remark periodDays_spec_bounds (p : Period) :
  let elapsed :=
    inject_Z (getTime (endDate p) - getTime (startDate p))
    / inject_Z msPerDay in
  elapsed + 1 <= periodDays_spec p /\ periodDays_spec p < elapsed + 2.
Proof.
  cbv zeta. unfold periodDays_spec.
  set (x := inject_Z _ / inject_Z msPerDay).
  pose proof (Qle_ceiling x) as Hle.
  pose proof (Qceiling_lt x) as Hlt.
  unfold Z.sub in Hlt. rewrite inject_Z_plus in Hlt.
  change (inject_Z (- (1))) with (- (1)) in Hlt.
  split; lra.
Qed.

Remark periodDays_spec_whole_days (p : Period) (d : Z) :
  (getTime (endDate p) - getTime (startDate p) = d * msPerDay)%Z ->
  periodDays_spec p == inject_Z d + 1.
Proof.
  intros Hd. unfold periodDays_spec. rewrite Hd, inject_Z_mult.
  assert (Hq : inject_Z d * inject_Z msPerDay / inject_Z msPerDay
               == inject_Z d) by now field.
  rewrite Hq, Qceiling_Z. reflexivity.
Qed.

(** ** The monthly amount of the aggregate (C2) *)

(** C2.  In the reducer of the aggregate calculation the monthly amount of
    a bill is its amount when the frequency is monthly, the amount times
    4.33 when weekly, a third of it when quarterly, a twelfth when yearly,
    and 0 for every other frequency. *)
Theorem monthlyAmount_by_frequency (b : Bill.t) :
  (Bill.frequency b = "monthly"%string -> monthlyAmount b = Bill.amount b)
  /\ (Bill.frequency b = "weekly"%string ->
      monthlyAmount b = Bill.amount b * 4.33)
  /\ (Bill.frequency b = "quarterly"%string ->
      monthlyAmount b = Bill.amount b / 3)
  /\ (Bill.frequency b = "yearly"%string ->
      monthlyAmount b = Bill.amount b / 12)
  /\ (~ recognised (Bill.frequency b) -> monthlyAmount b = 0).
Proof.
  unfold monthlyAmount.
  repeat split; try (intros ->; reflexivity).
  intros Hother.
  repeat match goal with
         | |- context [(?f =? ?lit)%string] =>
           destruct (String.eqb_spec f lit) as [Heq | _];
           [exfalso; apply Hother; unfold recognised; tauto |]
         end.
  reflexivity.
Qed.

(** ** Bills for the current period (C1, C3, C6, C10) *)

Section PeriodBillsFacts.

Variable Config : Type.
Variable getPeriod : Config -> completion Period.
Variable config : Config.

(** With a period at hand the total is the [reduce] of the [try] block, for
    the empty list as well. *)
Lemma total_with_period (period : Period) (bills : list Bill.t) :
  getPeriod config = Normal period ->
  calculateBillsForCurrentPeriod getPeriod config (Some bills) =
  fold_left
    (fun sum bill => sum + monthlyAmount bill * periodRatio_spec period)
    bills 0.
Proof.
  intros Hp. unfold calculateBillsForCurrentPeriod. rewrite Hp.
  destruct bills; reflexivity.
Qed.

(** Without one it is the [reduce] of the [catch] block, whose callback adds
    the unscaled monthly amount. *)
Lemma total_without_period (err : string) (bills : list Bill.t) :
  getPeriod config = Throw err ->
  calculateBillsForCurrentPeriod getPeriod config (Some bills) ==
  Qsum (map monthlyAmount bills).
Proof.
  intros Hp. unfold calculateBillsForCurrentPeriod. rewrite Hp.
  destruct (List.length bills =? 0)%nat eqn:Hlen.
  - apply Nat.eqb_eq in Hlen. apply length_zero_iff_nil in Hlen.
    subst bills. reflexivity.
  - rewrite (fold_left_adds _ _ monthlyAmount).
    + ring.
    + intros sum b. unfold monthlyAmount.
      repeat match goal with
             | |- context [if ?c then _ else _] => destruct c
             end; ring.
Qed.

(** Appending a bill adds its prorated monthly amount to the total. *)
Lemma total_app_last (period : Period) (bills : list Bill.t) (b : Bill.t) :
  getPeriod config = Normal period ->
  calculateBillsForCurrentPeriod getPeriod config (Some (bills ++ [b])) =
  calculateBillsForCurrentPeriod getPeriod config (Some bills)
  + monthlyAmount b * periodRatio_spec period.
Proof.
  intros Hp. rewrite !(total_with_period period) by assumption.
  now rewrite fold_left_app.
Qed.

(** With a period, the displayed amount of a bill of a recognised frequency
    is its monthly amount times the ratio. *)
Lemma periodAmount_with_period (period : Period) (b : Bill.t) :
  getPeriod config = Normal period ->
  recognised (Bill.frequency b) ->
  periodAmount getPeriod config b = monthlyAmount b * periodRatio_spec period.
Proof.
  intros Hp Hf. unfold periodAmount, monthlyAmount. rewrite Hp.
  destruct Hf as [Hf | [Hf | [Hf | Hf]]]; rewrite Hf; reflexivity.
Qed.

(** C1.  When the period utility returns a period, the day count is
    [ceil((endDate - startDate) in days) + 1], the ratio is the day count
    over 30.44, and the total is the sum over the bills of monthly amount
    times ratio: each bill appended to the list adds exactly that product.
    A weekly bill of 100 over a period of 7 days has monthly amount 433 and
    contributes 433 * 7 / 30.44, which is within 0.05 of 99.6. *)
Theorem bills_total_prorated (period : Period) :
  getPeriod config = Normal period ->
  (forall bills,
      calculateBillsForCurrentPeriod getPeriod config (Some bills) ==
      Qsum (map (fun b => monthlyAmount b * periodRatio_spec period) bills))
  /\ (forall bills b,
         calculateBillsForCurrentPeriod getPeriod config (Some (bills ++ [b]))
         == calculateBillsForCurrentPeriod getPeriod config (Some bills)
            + monthlyAmount b * (periodDays_spec period / 30.44))
  /\ (periodDays_spec period == 7 ->
      forall b,
        Bill.frequency b = "weekly"%string ->
        Bill.amount b == 100 ->
        monthlyAmount b == 433
        /\ calculateBillsForCurrentPeriod getPeriod config (Some [b])
           == 433 * (7 / 30.44)
        /\ Qabs (calculateBillsForCurrentPeriod getPeriod config (Some [b])
                 - 99.6) < 0.05).
Proof.
  intros Hp. split; [| split].
  - intros bills. rewrite (total_with_period period) by assumption.
    rewrite (fold_left_adds _ _
               (fun b => monthlyAmount b * periodRatio_spec period)).
    + ring.
    + intros; reflexivity.
  - intros bills b. rewrite (total_app_last period) by assumption.
    reflexivity.
  - intros Hdays b Hf Ha.
    assert (Hm : monthlyAmount b == 433).
    { unfold monthlyAmount. rewrite Hf. simpl. rewrite Ha. reflexivity. }
    assert (Ht : calculateBillsForCurrentPeriod getPeriod config (Some [b])
                 == 433 * (7 / 30.44)).
    { rewrite (total_with_period period) by assumption. simpl.
      unfold periodRatio_spec. rewrite Hm, Hdays. reflexivity. }
    repeat split; [exact Hm | exact Ht |].
    rewrite Ht. reflexivity.
Qed.

(** C6.  The total is 0 when the bill list is undefined and when it is
    empty, whatever the period utility would do: the function returns
    before calling it, so a utility that throws makes no difference. *)
Theorem bills_total_zero_without_bills :
  calculateBillsForCurrentPeriod getPeriod config None = 0
  /\ calculateBillsForCurrentPeriod getPeriod config (Some []) = 0.
Proof.
  split; reflexivity.
Qed.

(** C10.  When the period utility returns a period, for a bill whose
    frequency is monthly, weekly, quarterly or yearly the amount shown in
    the per-bill list is the amount the bill adds to the total; hence the
    total of a list of such bills is the sum of the amounts shown. *)
Theorem periodAmount_matches_total (period : Period) :
  getPeriod config = Normal period ->
  (forall b bills,
      recognised (Bill.frequency b) ->
      calculateBillsForCurrentPeriod getPeriod config (Some (bills ++ [b])) =
      calculateBillsForCurrentPeriod getPeriod config (Some bills)
      + periodAmount getPeriod config b)
  /\ (forall bills,
         Forall (fun b => recognised (Bill.frequency b)) bills ->
         calculateBillsForCurrentPeriod getPeriod config (Some bills) ==
         Qsum (map (periodAmount getPeriod config) bills)).
Proof.
  intros Hp. split.
  - intros b bills Hf.
    rewrite (periodAmount_with_period period) by assumption.
    now apply total_app_last.
  - intros bills Hall. rewrite (total_with_period period) by assumption.
    rewrite (fold_left_adds _ _
               (fun b => monthlyAmount b * periodRatio_spec period))
      by (intros; reflexivity).
    rewrite Qplus_0_l.
    induction Hall as [| b bills Hb _ IH]; simpl.
    + reflexivity.
    + rewrite IH, (periodAmount_with_period period) by assumption.
      reflexivity.
Qed.

(** A bill that is not monthly and costs something has a monthly amount
    different from its nominal amount. *)
Lemma monthlyAmount_differs (b : Bill.t) :
  Bill.frequency b <> "monthly"%string ->
  ~ Bill.amount b == 0 ->
  ~ monthlyAmount b == Bill.amount b.
Proof.
  intros Hf Ha. unfold monthlyAmount.
  destruct (String.eqb_spec (Bill.frequency b) "monthly"); [contradiction |].
  repeat match goal with
         | |- context [if ?c then _ else _] => destruct c
         end; intros H; apply Ha;
    unfold Qdiv in H;
    try change (/ 3) with (1 # 3) in H;
    try change (/ 12) with (1 # 12) in H;
    lra.
Qed.

(** C3.  When the period utility throws, the total is the sum of
    the unscaled monthly amounts, as if the ratio were 1, and every row of
    the per-bill list shows the nominal amount of its bill.  For a bill
    that is not monthly and whose amount is not zero, what the bill adds
    to the total differs from the amount its row shows. *)
Theorem fallback_when_period_throws (err : string) :
  getPeriod config = Throw err ->
  (forall bills,
      calculateBillsForCurrentPeriod getPeriod config (Some bills) ==
      Qsum (map (fun b => monthlyAmount b * 1) bills))
  /\ (forall bills,
         billRows getPeriod config (Some bills) =
         map (fun b => (Bill.name b, Bill.amount b)) (firstn 5 bills))
  /\ (forall bills b,
         Bill.frequency b <> "monthly"%string ->
         ~ Bill.amount b == 0 ->
         ~ calculateBillsForCurrentPeriod getPeriod config
             (Some (bills ++ [b]))
           - calculateBillsForCurrentPeriod getPeriod config (Some bills)
           == periodAmount getPeriod config b).
Proof.
  intros Hp. split; [| split].
  - intros bills. rewrite (total_without_period err) by assumption.
    induction bills as [| b bills IH]; simpl.
    + reflexivity.
    + rewrite IH. ring.
  - intros bills. unfold billRows, periodAmount. rewrite Hp.
    destruct bills; reflexivity.
  - intros bills b Hf Ha.
    rewrite !(total_without_period err) by assumption.
    rewrite map_app, Qsum_app. simpl.
    unfold periodAmount. rewrite Hp.
    intros H. apply (monthlyAmount_differs b Hf Ha). lra.
Qed.

End PeriodBillsFacts.

(** ** Budget categories (C4, C5) *)

(** What [periodAllocatedAmount || allocatedAmount] evaluates to. *)
Lemma budgetAmount_cases (c : Category.t) :
  match Category.periodAllocatedAmount c with
  | Some v =>
    (~ v == 0 -> budgetAmount c = v)
    /\ (v == 0 -> budgetAmount c = Category.allocatedAmount c)
  | None => budgetAmount c = Category.allocatedAmount c
  end.
Proof.
  unfold budgetAmount, JS.or.
  destruct (Category.periodAllocatedAmount c) as [v |]; [| reflexivity].
  destruct (truthy v) eqn:Hv; split; intros H; try reflexivity.
  - now apply truthy_true_nonzero in Hv.
  - now apply truthy_false_zero in Hv.
Qed.

(** C4.  The code at a category whose period-adjusted amount is present and
    equal to 0, with 100 allocated and 50 spent: the budget amount is the
    allocated 100, not the period-adjusted 0, and the percentage is 50. *)
Theorem budgetAmount_zero_period_amount :
  Category.periodAllocatedAmount (category 100 50 (Some 0)) = Some 0
  /\ budgetAmount (category 100 50 (Some 0)) = 100
  /\ percentage (category 100 50 (Some 0)) == 50.
Proof.
  repeat split.
Qed.

(** C5.  The percentage is spent over budget amount times 100 when the
    budget amount is positive and 0 otherwise, so that a budget amount of 0
    gives percentage 0 and no over-budget flag whatever was spent; the flag
    is set exactly when the percentage exceeds 100; the bar width is the
    minimum of the percentage and 100, hence at most 100. *)
Theorem category_progress (c : Category.t) :
  (0 < budgetAmount c ->
   percentage c = Category.spentAmount c / budgetAmount c * 100)
  /\ (budgetAmount c <= 0 -> percentage c = 0 /\ isOverBudget c = false)
  /\ (Category.periodAllocatedAmount c = None ->
      Category.allocatedAmount c == 0 ->
      percentage c = 0 /\ isOverBudget c = false)
  /\ (isOverBudget c = true <-> 100 < percentage c)
  /\ barWidth c = Qmin (percentage c) 100
  /\ barWidth c <= 100
  /\ (isOverBudget c = true -> barWidth c == 100)
  /\ (isOverBudget c = false -> barWidth c == percentage c).
Proof.
  assert (Hzero : budgetAmount c <= 0 ->
                  percentage c = 0 /\ isOverBudget c = false).
  { intros Hle. apply gt_false_iff in Hle.
    unfold isOverBudget, percentage. rewrite Hle. split; reflexivity. }
  assert (Hmissing : Category.periodAllocatedAmount c = None ->
                     Category.allocatedAmount c == 0 ->
                     budgetAmount c <= 0).
  { intros Hnone Hall.
    pose proof (budgetAmount_cases c) as Hc. rewrite Hnone in Hc.
    rewrite Hc, Hall. apply Qle_refl. }
  unfold isOverBudget, barWidth, Math_min.
  split; [| split; [| split; [| split; [| split; [| split; [| split]]]]]].
  - intros Hpos. apply gt_true_iff in Hpos.
    unfold percentage. now rewrite Hpos.
  - exact Hzero.
  - intros Hnone Hall. now apply Hzero, Hmissing.
  - apply gt_true_iff.
  - reflexivity.
  - apply Q.le_min_r.
  - intros H. apply gt_true_iff in H. apply Q.min_r. now apply Qlt_le_weak.
  - intros H. apply gt_false_iff in H. now apply Q.min_l.
Qed.

(** ** Total debt (C7) *)

(** C7.  The total debt is the sum of the current balances of the debts
    the query returned, and 0 when the list is empty or undefined. *)
Theorem total_debt_is_sum :
  (forall debts,
      calculateTotalDebt (Some debts) ==
      Qsum (map Debt.currentBalance debts))
  /\ calculateTotalDebt (Some []) = 0
  /\ calculateTotalDebt None = 0.
Proof.
  repeat split.
  intros debts. unfold calculateTotalDebt, JS.or. simpl.
  assert (Hsum : fold_left (fun sum debt => sum + Debt.currentBalance debt)
                           debts 0
                 == Qsum (map Debt.currentBalance debts)).
  { rewrite (fold_left_adds _ _ Debt.currentBalance) by (intros; reflexivity).
    ring. }
  destruct (truthy _) eqn:Ht.
  - exact Hsum.
  - apply truthy_false_zero in Ht. rewrite <- Hsum, Ht. reflexivity.
Qed.

(** ** Budget selection (C8, C9) *)

(** In a list without duplicate ids, [find] by id returns the budget of the
    list that carries the id. *)
Lemma find_by_unique_id (bs : list Budget.t) (b : Budget.t) :
  NoDup (map Budget.id bs) ->
  In b bs ->
  find (fun b' => (Budget.id b' =? Budget.id b)%string) bs = Some b.
Proof.
  induction bs as [| x bs IH]; simpl; intros Hnd Hin; [contradiction |].
  inversion Hnd as [| ? ? Hnotin Hnd']; subst.
  destruct (String.eqb_spec (Budget.id x) (Budget.id b)) as [Heq | Hneq].
  - destruct Hin as [-> | Hin]; [reflexivity |].
    exfalso. apply Hnotin. rewrite Heq. now apply in_map.
  - destruct Hin as [-> | Hin]; [congruence |]. now apply IH.
Qed.

Lemma onChange_selected (s : State) (b : Budget.t) (bs : list Budget.t)
      (value : string) :
  budgets s = Some (b :: bs) ->
  onChange s value =
  setSelectedBudget s
    (find (fun b' => (Budget.id b' =? value)%string) (b :: bs)).
Proof.
  intros Hs. unfold onChange. rewrite Hs. reflexivity.
Qed.

(** C8.  When the user picks an identifier in the select element (which is
    there only for a non-empty list), the budget list is unchanged; a
    selected budget is in the list and carries the chosen id; if some
    budget of the list carries the id, one is selected, and it is that very
    budget when ids are not duplicated; if none carries it, the selection
    is null.  The handler is a total function: there is no failing case. *)
Theorem onChange_selects_by_id (s : State) (bs : list Budget.t)
        (value : string) :
  budgets s = Some bs ->
  bs <> [] ->
  budgets (onChange s value) = Some bs
  /\ (forall b,
         selectedBudget (onChange s value) = Some b ->
         In b bs /\ Budget.id b = value)
  /\ (forall b,
         In b bs -> Budget.id b = value ->
         exists b', selectedBudget (onChange s value) = Some b')
  /\ (forall b,
         NoDup (map Budget.id bs) ->
         In b bs -> Budget.id b = value ->
         selectedBudget (onChange s value) = Some b)
  /\ ((forall b, In b bs -> Budget.id b <> value) ->
      selectedBudget (onChange s value) = None).
Proof.
  intros Hs Hne. destruct bs as [| b0 bs0]; [contradiction |].
  rewrite (onChange_selected s b0 bs0) by assumption.
  unfold setSelectedBudget. cbn [budgets selectedBudget].
  split; [assumption |].
  clear Hs Hne. generalize (b0 :: bs0) as l. intros l.
  split; [| split; [| split]].
  - intros b Hfind. apply find_some in Hfind. destruct Hfind as [Hin Heq].
    split; [assumption |]. now apply String.eqb_eq.
  - intros b Hin Hid.
    destruct (find _ l) as [b' |] eqn:Hfind; [now exists b' |].
    apply (find_none _ _ Hfind) in Hin.
    apply String.eqb_neq in Hin. contradiction.
  - intros b Hnd Hin <-. now apply find_by_unique_id.
  - intros Hnone.
    destruct (find _ l) as [b' |] eqn:Hfind; [| reflexivity].
    apply find_some in Hfind. destruct Hfind as [Hin Heq].
    apply String.eqb_eq in Heq. now apply Hnone in Hin.
Qed.

(** After a choice that matches no budget the selection is null, so the
    auto-select effect, which runs next, selects the first budget. *)
Remark unknown_choice_then_effect (s : State) (b : Budget.t)
       (bs : list Budget.t) (value : string) :
  budgets s = Some (b :: bs) ->
  (forall b', In b' (b :: bs) -> Budget.id b' <> value) ->
  selectedBudget (onChange s value) = None
  /\ selectedBudget (react s (Chosen value)) = Some b.
Proof.
  intros Hs Hnone.
  assert (Hfind : find (fun b' => (Budget.id b' =? value)%string) (b :: bs)
                  = None).
  { destruct (find _ (b :: bs)) as [b' |] eqn:Hfind; [| reflexivity].
    apply find_some in Hfind. destruct Hfind as [Hin Heq].
    apply String.eqb_eq in Heq. now apply Hnone in Hin. }
  unfold react, handle. rewrite (onChange_selected s b bs) by assumption.
  rewrite Hfind. unfold autoSelect, setSelectedBudget. simpl.
  rewrite Hs. simpl. split; reflexivity.
Qed.

(** C9.  When the live query delivers a non-empty list while nothing is
    selected, the effect selects the first budget of the list; when a
    budget is selected already, the delivery of a list (or of no list)
    leaves the selection as it is. *)
Theorem autoSelect_first_budget (s : State) :
  (forall b bs,
      selectedBudget s = None ->
      autoSelect (receiveBudgets s (Some (b :: bs))) =
      {| budgets := Some (b :: bs); selectedBudget := Some b |})
  /\ (forall b result,
         selectedBudget s = Some b ->
         autoSelect (receiveBudgets s result) =
         {| budgets := result; selectedBudget := Some b |}).
Proof.
  split.
  - intros b bs Hsel. unfold autoSelect, receiveBudgets. simpl.
    rewrite Hsel. reflexivity.
  - intros b result Hsel. unfold autoSelect, receiveBudgets. simpl.
    rewrite Hsel. destruct result as [bs |]; [| reflexivity].
    now rewrite andb_false_r.
Qed.

(** * The theorems at concrete inputs *)

(** A weekly bill of 100 in the first week of 2024, a period of 7 days. *)
Lemma bills_total_prorated_first_week :
  periodDays_spec firstWeekOf2024 == 7
  /\ Qabs (calculateBillsForCurrentPeriod (periodIs firstWeekOf2024) tt
             (Some [cleaner]) - 99.6) < 0.05.
Proof.
  split; [reflexivity |].
  destruct (bills_total_prorated unit (periodIs firstWeekOf2024) tt
              firstWeekOf2024 eq_refl) as (_ & _ & H).
  destruct (H (eq_refl : periodDays_spec firstWeekOf2024 == 7) cleaner
              eq_refl (eq_refl : Bill.amount cleaner == 100))
    as (_ & _ & Hclose).
  exact Hclose.
Defined.

(** The monthly amounts of a weekly, a monthly and a yearly bill. *)
Lemma monthlyAmount_by_frequency_samples :
  monthlyAmount cleaner = 100 * 4.33
  /\ monthlyAmount rent = 950
  /\ monthlyAmount insurance = 240 / 12
  /\ monthlyAmount (bill "Car tax" 180 "biannual") = 0.
Proof.
  split; [| split; [| split]].
  - now apply (monthlyAmount_by_frequency cleaner).
  - now apply (monthlyAmount_by_frequency rent).
  - now apply (monthlyAmount_by_frequency insurance).
  - apply (monthlyAmount_by_frequency (bill "Car tax" 180 "biannual")).
    unfold recognised. simpl.
    intros [H | [H | [H | H]]]; discriminate H.
Defined.

(** A weekly bill of amount 0 when the period utility throws: the bill is
    not monthly, yet what it adds to the total, alone or after the rent,
    equals what its row shows. *)
Lemma fallbacks_agree_on_zero_amount :
  Bill.frequency freeTrial <> "monthly"%string
  /\ calculateBillsForCurrentPeriod periodFails tt (Some [freeTrial])
     == periodAmount periodFails tt freeTrial
  /\ calculateBillsForCurrentPeriod periodFails tt
       (Some ([rent] ++ [freeTrial]))
     - calculateBillsForCurrentPeriod periodFails tt (Some [rent])
     == periodAmount periodFails tt freeTrial.
Proof.
  split; [discriminate | split; reflexivity].
Qed.

(** The fallbacks for the rent and the weekly cleaner when the period
    utility throws. *)
Lemma fallback_when_period_throws_cleaner :
  billRows periodFails tt (Some [rent; cleaner]) =
  [("Rent"%string, 950); ("Cleaner"%string, 100)]
  /\ ~ calculateBillsForCurrentPeriod periodFails tt
         (Some ([rent] ++ [cleaner]))
       - calculateBillsForCurrentPeriod periodFails tt (Some [rent])
       == periodAmount periodFails tt cleaner.
Proof.
  destruct (fallback_when_period_throws unit periodFails tt
              "Invalid monthly cycle configuration" eq_refl)
    as (_ & Hrows & Hdiffer).
  split.
  - apply (Hrows [rent; cleaner]).
  - apply (Hdiffer [rent] cleaner); discriminate.
Defined.

(** A category with 100 allocated and 150 spent, and one with nothing
    allocated and 50 spent. *)
Lemma category_progress_samples :
  percentage (category 100 150 None) = 150 / 100 * 100
  /\ isOverBudget (category 100 150 None) = true
  /\ barWidth (category 100 150 None) == 100
  /\ percentage (category 0 50 None) = 0
  /\ isOverBudget (category 0 50 None) = false.
Proof.
  pose proof (category_progress (category 100 150 None))
    as (Hpct & _ & _ & Hover & _ & _ & Hfull & _).
  pose proof (category_progress (category 0 50 None))
    as (_ & _ & Hzero & _).
  split; [| split; [| split]].
  - apply Hpct. reflexivity.
  - apply Hover. reflexivity.
  - apply Hfull. reflexivity.
  - apply Hzero; reflexivity.
Defined.

(** Choosing among two budgets, by an id of the list and by an unknown
    one. *)
Lemma onChange_selects_by_id_samples :
  selectedBudget (onChange householdSelected "holiday") = Some holiday
  /\ selectedBudget (onChange householdSelected "pension") = None.
Proof.
  split.
  - refine (proj1 (proj2 (proj2 (proj2
              (onChange_selects_by_id householdSelected [household; holiday]
                 "holiday" eq_refl _)))) holiday _ _ eq_refl).
    + discriminate.
    + repeat constructor; simpl; intuition discriminate.
    + simpl. tauto.
  - refine (proj2 (proj2 (proj2 (proj2
              (onChange_selects_by_id householdSelected [household; holiday]
                 "pension" eq_refl _)))) _).
    + discriminate.
    + simpl. intros b [<- | [<- | []]]; discriminate.
Defined.

(** The first of two budgets is selected when the list arrives; a later
    delivery in another order leaves the selection alone. *)
Lemma autoSelect_first_budget_samples :
  autoSelect (receiveBudgets nothingLoaded (Some [household; holiday]))
  = householdSelected
  /\ autoSelect (receiveBudgets householdSelected (Some [holiday; household]))
     = {| budgets := Some [holiday; household];
          selectedBudget := Some household |}.
Proof.
  split.
  - exact (proj1 (autoSelect_first_budget nothingLoaded)
                  household [holiday] eq_refl).
  - exact (proj2 (autoSelect_first_budget householdSelected)
                  household (Some [holiday; household]) eq_refl).
Defined.

(** The yearly insurance added to the rent and the cleaner in the first
    week of 2024: the total grows by the amount its row shows. *)
Lemma periodAmount_matches_total_insurance :
  calculateBillsForCurrentPeriod (periodIs firstWeekOf2024) tt
    (Some ([rent; cleaner] ++ [insurance]))
  = calculateBillsForCurrentPeriod (periodIs firstWeekOf2024) tt
      (Some [rent; cleaner])
    + periodAmount (periodIs firstWeekOf2024) tt insurance.
Proof.
  apply (proj1 (periodAmount_matches_total unit (periodIs firstWeekOf2024) tt
                  firstWeekOf2024 eq_refl)).
  unfold recognised. simpl. tauto.
Defined.

(** * Further properties of the component *)

(** ** Helper lemmas on sums and on the day count *)

Lemma Qsum_map_scale (A : Type) (g : A -> Q) (r : Q) (l : list A) :
  Qsum (map (fun x => g x * r) l) == r * Qsum (map g l).
Proof.
  induction l as [| x l IH]; simpl.
  - ring.
  - rewrite IH. ring.
Qed.

Lemma Qsum_permutation (l l' : list Q) :
  Permutation l l' -> Qsum l == Qsum l'.
Proof.
  induction 1 as [| x l l' _ IH | x y l | l l' l'' _ IH1 _ IH2]; simpl.
  - reflexivity.
  - now rewrite IH.
  - ring.
  - now rewrite IH1.
Qed.

Lemma Qsum_nonneg (l : list Q) :
  (forall x, In x l -> 0 <= x) -> 0 <= Qsum l.
Proof.
  induction l as [| x l IH]; simpl; intros Hall.
  - apply Qle_refl.
  - assert (0 <= x) by (apply Hall; now left).
    assert (0 <= Qsum l) by (apply IH; intros; apply Hall; now right).
    lra.
Qed.

Lemma monthlyAmount_nonneg (b : Bill.t) :
  0 <= Bill.amount b -> 0 <= monthlyAmount b.
Proof.
  intros Ha. unfold monthlyAmount.
  repeat match goal with
         | |- context [if ?c then _ else _] => destruct c
         end;
    unfold Qdiv;
    try change (/ 3) with (1 # 3);
    try change (/ 12) with (1 # 12);
    lra.
Qed.

(** The ceiling of a quotient by the length of a day: [k] when the
    numerator is above [k - 1] days and at most [k] days. *)
Lemma ceiling_of_days (ms k : Z) :
  ((k - 1) * msPerDay < ms <= k * msPerDay)%Z ->
  Qceiling (inject_Z ms / inject_Z msPerDay) = k.
Proof.
  intros [Hlo Hhi].
  set (x := inject_Z ms / inject_Z msPerDay).
  assert (Hday : 0 < inject_Z msPerDay) by reflexivity.
  assert (Hx_hi : x <= inject_Z k).
  { unfold x. apply Qle_shift_div_r; [exact Hday |].
    rewrite <- inject_Z_mult. now rewrite <- Zle_Qle. }
  assert (Hx_lo : inject_Z (k - 1) < x).
  { unfold x. apply Qlt_shift_div_l; [exact Hday |].
    rewrite <- inject_Z_mult. now rewrite <- Zlt_Qlt. }
  apply Z.le_antisymm.
  - rewrite <- (Qceiling_Z k). now apply Qceiling_resp_le.
  - assert (Hc : inject_Z (k - 1) < inject_Z (Qceiling x)).
    { eapply Qlt_le_trans; [exact Hx_lo | apply Qle_ceiling]. }
    rewrite <- Zlt_Qlt in Hc. lia.
Qed.

Lemma periodDays_spec_counts (p : Period) (k : Z) :
  ((k - 1) * msPerDay < getTime (endDate p) - getTime (startDate p)
   <= k * msPerDay)%Z ->
  periodDays_spec p == inject_Z (k + 1).
Proof.
  intros Hk. unfold periodDays_spec.
  rewrite (ceiling_of_days _ k Hk), inject_Z_plus. reflexivity.
Qed.

(** A period that does not end before it starts counts at least one day. *)
Lemma periodDays_spec_pos (p : Period) :
  (getTime (startDate p) <= getTime (endDate p))%Z ->
  1 <= periodDays_spec p.
Proof.
  intros Hle.
  pose proof (periodDays_spec_bounds p) as [Hlo _]. cbv zeta in Hlo.
  assert (0 <= inject_Z (getTime (endDate p) - getTime (startDate p))
               / inject_Z msPerDay).
  { apply Qle_shift_div_l; [reflexivity |].
    rewrite Qmult_0_l. change 0 with (inject_Z 0). rewrite <- Zle_Qle. lia. }
  lra.
Qed.

(** ** More on the bills of the current period *)

Section PeriodBillsMore.

Variable Config : Type.
Variable getPeriod : Config -> completion Period.
Variable config : Config.

(** With a period the total is the sum of the prorated monthly amounts,
    without one the sum of the monthly amounts: both are sums over the
    list. *)
Lemma total_as_sum (bills : list Bill.t) :
  exists r,
    calculateBillsForCurrentPeriod getPeriod config (Some bills) ==
    Qsum (map (fun b => monthlyAmount b * r) bills)
    /\ match getPeriod config with
       | Normal period => r = periodRatio_spec period
       | Throw _ => r = 1
       end.
Proof.
  destruct (getPeriod config) as [period | err] eqn:Hp.
  - exists (periodRatio_spec period). split; [| reflexivity].
    rewrite (total_with_period _ _ _ period) by assumption.
    rewrite (fold_left_adds _ _
               (fun b => monthlyAmount b * periodRatio_spec period))
      by (intros; reflexivity).
    ring.
  - exists 1. split; [| reflexivity].
    rewrite (total_without_period _ _ _ err) by assumption.
    rewrite Qsum_map_scale. ring.
Qed.



(** X3.  When no bill has a negative amount and the period, if there is
    one, does not end before it starts, the total is not negative. *)
Theorem total_nonneg (bills : list Bill.t) :
  (forall b, In b bills -> 0 <= Bill.amount b) ->
  (forall period,
      getPeriod config = Normal period ->
      (getTime (startDate period) <= getTime (endDate period))%Z) ->
  0 <= calculateBillsForCurrentPeriod getPeriod config (Some bills).
Proof.
  intros Hamounts Hdates.
  destruct (total_as_sum bills) as (r & Ht & Hr).
  assert (Hrpos : 0 <= r).
  { destruct (getPeriod config) as [period | err]; subst r; [| lra].
    pose proof (periodDays_spec_pos period (Hdates period eq_refl)).
    unfold periodRatio_spec. apply Qle_shift_div_l; [reflexivity | lra]. }
  rewrite Ht. apply Qsum_nonneg. intros x Hin.
  apply in_map_iff in Hin. destruct Hin as (b & <- & Hb).
  apply Qmult_le_0_compat; [| assumption].
  apply monthlyAmount_nonneg. now apply Hamounts.
Qed.


(** X5.  With a period, a bill whose frequency is none of the four has a
    row showing its amount times the period ratio, while it adds nothing to
    the total. *)
Theorem unrecognised_frequency_row_and_total (period : Period)
        (bills : list Bill.t) (b : Bill.t) :
  getPeriod config = Normal period ->
  ~ recognised (Bill.frequency b) ->
  periodAmount getPeriod config b =
  Bill.amount b * (periodDays_spec period / 30.44)
  /\ calculateBillsForCurrentPeriod getPeriod config (Some (bills ++ [b]))
     == calculateBillsForCurrentPeriod getPeriod config (Some bills).
Proof.
  intros Hp Hother.
  assert (Hfreq : (Bill.frequency b =? "monthly")%string = false
                  /\ (Bill.frequency b =? "weekly")%string = false
                  /\ (Bill.frequency b =? "quarterly")%string = false
                  /\ (Bill.frequency b =? "yearly")%string = false).
  { repeat split; apply String.eqb_neq; intros Heq; apply Hother;
      unfold recognised; tauto. }
  destruct Hfreq as (H1 & H2 & H3 & H4).
  split.
  - unfold periodAmount. rewrite Hp, H1, H2, H3, H4. reflexivity.
  - rewrite (total_app_last _ _ _ period) by assumption.
    unfold monthlyAmount. rewrite H1, H2, H3, H4. ring.
Qed.


End PeriodBillsMore.

(** X6.  The list shows the first five bills by name and in order, and the
    "+N more bills" line counts the others: rows and N together account
    for every bill, and the line is there exactly when there are more than
    five bills. *)
Theorem rows_and_more_cover_bills
        (Config : Type) (getPeriod : Config -> completion Period)
        (config : Config) (bills : list Bill.t) :
  map fst (billRows getPeriod config (Some bills)) =
  map Bill.name (firstn 5 bills)
  /\ List.length (billRows getPeriod config (Some bills)) =
     Nat.min 5 (List.length bills)
  /\ (List.length (billRows getPeriod config (Some bills))
      + match moreBills (Some bills) with
        | Some n => n
        | None => 0
        end = List.length bills)%nat
  /\ (moreBills (Some bills) = None <-> (List.length bills <= 5)%nat)
  /\ moreBills (Some bills) <> Some 0%nat.
Proof.
  assert (Hrows : billRows getPeriod config (Some bills) =
                  map (fun bill =>
                         (Bill.name bill, periodAmount getPeriod config bill))
                      (firstn 5 bills)).
  { unfold billRows. destruct bills; reflexivity. }
  rewrite Hrows. unfold moreBills.
  rewrite map_map, length_map, length_firstn. cbn [fst].
  destruct (Nat.ltb_spec 0 (List.length bills)) as [Hpos | Hzero];
    destruct (Nat.ltb_spec 5 (List.length bills)) as [Hmore | Hfew];
    cbn [andb];
    repeat split; try reflexivity; try lia; try discriminate;
    try (intros H; inversion H; lia).
Qed.

(** ** More on budget categories *)


(** With a positive budget amount the percentage compares with 100 as the
    spent amount compares with the budget amount. *)
Lemma percentage_over_100 (c : Category.t) :
  0 < budgetAmount c ->
  (100 < percentage c <-> budgetAmount c < Category.spentAmount c).
Proof.
  intros Hpos. unfold percentage.
  rewrite (proj2 (gt_true_iff _ _) Hpos).
  set (q := Category.spentAmount c / budgetAmount c).
  assert (Hs : Category.spentAmount c == q * budgetAmount c).
  { unfold q. field. intros Hz. rewrite Hz in Hpos.
    now apply (Qlt_irrefl 0). }
  pose proof (Qmult_lt_r 1 q (budgetAmount c) Hpos) as Hmul.
  rewrite <- Hs, Qmult_1_l in Hmul.
  split; intros H.
  - apply Hmul. lra.
  - apply Hmul in H. lra.
Qed.

Lemma flagged_spent_exceeds (c : Category.t) :
  isOverBudget c = true <->
  0 < budgetAmount c /\ budgetAmount c < Category.spentAmount c.
Proof.
  unfold isOverBudget. rewrite gt_true_iff.
  destruct (Qlt_le_dec 0 (budgetAmount c)) as [Hpos | Hle].
  - rewrite (percentage_over_100 c Hpos). tauto.
  - split.
    + unfold percentage. rewrite (proj2 (gt_false_iff _ _) Hle).
      intros H. discriminate H.
    + intros [Hpos _]. exfalso. now apply (Qlt_not_le _ _ Hpos).
Qed.

(** X9.  A category is flagged over budget exactly when its budget amount
    is positive and less than the spent amount: without a positive budget
    amount no spending is ever flagged. *)
Theorem isOverBudget_iff (c : Category.t) :
  (isOverBudget c = true <->
   0 < budgetAmount c /\ budgetAmount c < Category.spentAmount c)
  /\ (budgetAmount c <= 0 -> isOverBudget c = false).
Proof.
  split; [apply flagged_spent_exceeds |].
  intros Hle. apply not_true_iff_false. intros Hover.
  apply flagged_spent_exceeds in Hover. lra.
Qed.


(** X11.  When the spent amount is not negative the bar width lies
    between 0 and 100. *)
Theorem barWidth_range (c : Category.t) :
  0 <= Category.spentAmount c ->
  0 <= barWidth c /\ barWidth c <= 100.
Proof.
  intros Hspent. unfold barWidth, Math_min. split; [| apply Q.le_min_r].
  apply Q.min_glb; [| discriminate].
  unfold percentage. destruct (JS.gt (budgetAmount c) 0) eqn:Hgt.
  - apply gt_true_iff in Hgt.
    apply Qmult_le_0_compat; [| discriminate].
    apply Qle_shift_div_l; [assumption | lra].
  - apply Qle_refl.
Qed.

(** ** More on the total debt *)


(** ** More on the budget selection *)

(** What [find] by id returns carries the id and is in the list; it
    returns nothing only when no budget carries the id. *)
Lemma find_by_id_cases (bs : list Budget.t) (value : string) :
  match find (fun b => (Budget.id b =? value)%string) bs with
  | Some b => In b bs /\ Budget.id b = value
  | None => forall b, In b bs -> Budget.id b <> value
  end.
Proof.
  destruct (find _ bs) as [b |] eqn:Hfind.
  - apply find_some in Hfind. destruct Hfind as [Hin Heq].
    split; [assumption |]. now apply String.eqb_eq.
  - intros b Hin. apply (find_none _ _ Hfind) in Hin.
    now apply String.eqb_neq.
Qed.

(** The reaction to a choice, with and without a select element. *)
Lemma react_chosen (s : State) (b : Budget.t) (bs : list Budget.t)
      (value : string) :
  budgets s = Some (b :: bs) ->
  react s (Chosen value) =
  {| budgets := Some (b :: bs);
     selectedBudget :=
       match find (fun b' => (Budget.id b' =? value)%string) (b :: bs) with
       | Some b' => Some b'
       | None => Some b
       end |}.
Proof.
  intros Hs. unfold react, handle.
  rewrite (onChange_selected s b bs) by assumption.
  unfold autoSelect, setSelectedBudget. cbn [budgets selectedBudget].
  rewrite Hs.
  destruct (find _ (b :: bs)); reflexivity.
Qed.

Lemma react_chosen_without_select (s : State) (value : string) :
  hasBudgets s = false -> react s (Chosen value) = s.
Proof.
  unfold hasBudgets, react, handle, onChange, autoSelect.
  destruct s as [[[| b bs] |] sel]; cbn [budgets selectedBudget];
    try reflexivity.
  discriminate.
Qed.

Lemma react_loaded (s : State) (result : option (list Budget.t)) :
  react s (BudgetsLoaded result) =
  {| budgets := result;
     selectedBudget :=
       match selectedBudget s, result with
       | None, Some (b :: _) => Some b
       | sel, _ => sel
       end |}.
Proof.
  unfold react, handle, receiveBudgets, autoSelect.
  destruct s as [bs0 [sel |]]; destruct result as [[| b bs] |];
    reflexivity.
Qed.

Lemma react_keeps_selection (s : State) (e : Event) :
  selectedBudget s <> None -> selectedBudget (react s e) <> None.
Proof.
  intros Hsel. destruct e as [result | value].
  - rewrite react_loaded. cbn [selectedBudget].
    destruct (selectedBudget s); [discriminate | contradiction].
  - destruct (hasBudgets s) eqn:Hhas.
    + unfold hasBudgets in Hhas.
      destruct (budgets s) as [[| b bs] |] eqn:Hbs; try discriminate.
      rewrite (react_chosen s b bs) by assumption. cbn [selectedBudget].
      destruct (find _ (b :: bs)); discriminate.
    + now rewrite react_chosen_without_select.
Qed.

Lemma react_selects_when_budgets (s : State) (e : Event) :
  hasBudgets (react s e) = true -> selectedBudget (react s e) <> None.
Proof.
  destruct e as [result | value].
  - rewrite react_loaded. unfold hasBudgets. cbn [budgets selectedBudget].
    destruct result as [[| b bs] |]; try discriminate.
    destruct (selectedBudget s); discriminate.
  - destruct (hasBudgets s) eqn:Hhas.
    + unfold hasBudgets in Hhas.
      destruct (budgets s) as [[| b bs] |] eqn:Hbs; try discriminate.
      rewrite (react_chosen s b bs) by assumption. cbn [selectedBudget].
      destruct (find _ (b :: bs)); discriminate.
    + rewrite react_chosen_without_select by assumption. congruence.
Qed.

(** X13.  Running the auto-select effect a second time changes nothing:
    the state it produces is stable. *)
Theorem autoSelect_idempotent (s : State) :
  autoSelect (autoSelect s) = autoSelect s.
Proof.
  unfold autoSelect.
  destruct s as [[[| b bs] |] [sel |]]; reflexivity.
Qed.

(** X14.  Along any sequence of query results and user choices, each
    followed by the effect, a selection once made is never lost (not even
    when the list becomes empty or no longer holds the selected budget),
    and, after at least one event, a non-empty budget list always comes
    with a selected budget. *)
Theorem selection_along_events (s : State) (events : list Event) :
  (selectedBudget s <> None -> selectedBudget (run s events) <> None)
  /\ (events <> [] ->
      hasBudgets (run s events) = true ->
      selectedBudget (run s events) <> None).
Proof.
  split.
  - revert s. unfold run.
    induction events as [| e events IH]; intros s Hsel; simpl.
    + assumption.
    + apply IH. now apply react_keeps_selection.
  - intros Hne. destruct (exists_last Hne) as (events' & e & ->).
    unfold run. rewrite fold_left_app. simpl.
    apply react_selects_when_budgets.
Qed.

(** X15.  After the user picks an id carried by a budget of the list, the
    select element shows that id, which is the value of one of its
    options; after a pick that matches no budget it shows the empty
    value. *)
Theorem selectValue_after_onChange (s : State) (bs : list Budget.t)
        (value : string) :
  budgets s = Some bs ->
  bs <> [] ->
  ((exists b, In b bs /\ Budget.id b = value) ->
   selectValue (onChange s value) = value
   /\ In value (map fst (selectOptions (onChange s value))))
  /\ ((forall b, In b bs -> Budget.id b <> value) ->
      selectValue (onChange s value) = ""%string).
Proof.
  intros Hs Hne. destruct bs as [| b0 bs0]; [contradiction |].
  rewrite (onChange_selected s b0 bs0) by assumption.
  unfold selectValue, selectOptions, setSelectedBudget.
  cbn [budgets selectedBudget]. rewrite Hs. cbn [List.length Nat.ltb Nat.leb].
  pose proof (find_by_id_cases (b0 :: bs0) value) as Hfind.
  destruct (find _ (b0 :: bs0)) as [b' |]; cbn [option_map or_string].
  - destruct Hfind as [Hin' Hid']. split.
    + intros _. split.
      * rewrite Hid'. now destruct (String.eqb_spec value "").
      * rewrite map_map. cbn [fst]. rewrite <- Hid'. now apply in_map.
    + intros Hnone. now apply Hnone in Hin'.
  - split; [| reflexivity].
    intros (b & Hin & Hid). now apply Hfind in Hin.
Qed.

(** X17.  A user choice followed by the effect always leaves a budget of
    the current list selected: the one [find] returns for the chosen id,
    or the first budget of the list when no budget carries the id. *)
Theorem choice_then_effect_selects_from_list (s : State) (b : Budget.t)
        (bs : list Budget.t) (value : string) :
  budgets s = Some (b :: bs) ->
  exists b',
    react s (Chosen value) =
    {| budgets := Some (b :: bs); selectedBudget := Some b' |}
    /\ In b' (b :: bs)
    /\ (Budget.id b' = value
        \/ (forall x, In x (b :: bs) -> Budget.id x <> value) /\ b' = b).
Proof.
  intros Hs. rewrite (react_chosen s b bs) by assumption.
  pose proof (find_by_id_cases (b :: bs) value) as Hfind.
  destruct (find _ (b :: bs)) as [b' |].
  - exists b'. destruct Hfind as [Hin Hid]. auto.
  - exists b. split; [reflexivity | split; [now left |]]. now right.
Qed.

(** ** The current period line *)

(** No text of the form [s ++ " - " ++ e] is the text of the standard
    cycle, which has no such separator. *)
Lemma dated_text_not_standard (s e : string) :
  (s ++ " - " ++ e)%string <> "Standard monthly cycle"%string.
Proof.
  intros H.
  repeat (destruct s as [| ? s]; simpl in H;
          [discriminate H | injection H as _ H]).
  destruct s; discriminate H.
Qed.

Section PeriodInfoFacts.

Variable Config : Type.
Variable getPeriod : Config -> completion Period.
Variable config : Config.
Variable toLocaleDateString : Date -> string.

(** X16.  While the preferences are loading the effect leaves the line as
    it is.  Once they are loaded the line is not empty, so it is rendered,
    and it reads "Current period: Standard monthly cycle" exactly when the
    period utility throws, that is, exactly when the bills total is the
    unscaled fallback. *)
Theorem currentPeriodInfo_line (currentPeriodInfo : string) :
  updateCurrentPeriodInfo getPeriod config toLocaleDateString true
    currentPeriodInfo = currentPeriodInfo
  /\ periodInfoShown
       (updateCurrentPeriodInfo getPeriod config toLocaleDateString false
          currentPeriodInfo) = true
  /\ (updateCurrentPeriodInfo getPeriod config toLocaleDateString false
        currentPeriodInfo = "Current period: Standard monthly cycle"%string
      <-> exists err, getPeriod config = Throw err).
Proof.
  unfold updateCurrentPeriodInfo, periodInfoShown. cbn [negb].
  split; [reflexivity |].
  destruct (getPeriod config) as [period | err];
    (split; [reflexivity | split]).
  - intros H. exfalso.
    change ("Current period: Standard monthly cycle"%string)
      with ("Current period: " ++ "Standard monthly cycle")%string in H.
    simpl in H. injection H as H.
    now apply dated_text_not_standard in H.
  - intros [err H]. discriminate H.
  - intros _. now exists err.
  - reflexivity.
Qed.

End PeriodInfoFacts.

(** * The further properties at concrete inputs *)



Lemma total_nonneg_first_week :
  0 <= calculateBillsForCurrentPeriod (periodIs firstWeekOf2024) tt
         (Some [rent; cleaner]).
Proof.
  apply (total_nonneg unit (periodIs firstWeekOf2024) tt).
  - intros b [<- | [<- | []]]; discriminate.
  - intros period H. injection H as <-. discriminate.
Defined.


Lemma unrecognised_frequency_car_tax :
  periodAmount (periodIs firstWeekOf2024) tt carTax
  = 180 * (periodDays_spec firstWeekOf2024 / 30.44)
  /\ calculateBillsForCurrentPeriod (periodIs firstWeekOf2024) tt
       (Some ([rent] ++ [carTax]))
     == calculateBillsForCurrentPeriod (periodIs firstWeekOf2024) tt
          (Some [rent]).
Proof.
  apply (unrecognised_frequency_row_and_total unit
           (periodIs firstWeekOf2024) tt firstWeekOf2024 [rent] carTax).
  - reflexivity.
  - unfold recognised. simpl. intros [H | [H | [H | H]]]; discriminate H.
Defined.



Lemma isOverBudget_iff_samples :
  isOverBudget (category 100 150 None) = true
  /\ isOverBudget (category 0 50 None) = false.
Proof.
  split.
  - apply (proj1 (isOverBudget_iff (category 100 150 None))).
    split; reflexivity.
  - apply (proj2 (isOverBudget_iff (category 0 50 None))).
    discriminate.
Defined.


Lemma barWidth_range_sample :
  0 <= barWidth (category 100 150 None)
  /\ barWidth (category 100 150 None) <= 100.
Proof.
  apply (barWidth_range (category 100 150 None)). discriminate.
Defined.


(** The list arrives, the user picks an unknown id, then the list comes
    back empty: a budget is selected after each of the three events. *)
Lemma selection_along_events_samples :
  selectedBudget
    (run householdSelected [Chosen "pension"; BudgetsLoaded (Some [])])
  <> None
  /\ selectedBudget
       (run nothingLoaded
            [BudgetsLoaded (Some [household; holiday]); Chosen "pension"])
     <> None.
Proof.
  split.
  - apply (proj1 (selection_along_events householdSelected
                    [Chosen "pension"; BudgetsLoaded (Some [])])).
    discriminate.
  - apply (proj2 (selection_along_events nothingLoaded
                    [BudgetsLoaded (Some [household; holiday]);
                     Chosen "pension"])).
    + discriminate.
    + reflexivity.
Defined.

Lemma selectValue_after_onChange_samples :
  selectValue (onChange householdSelected "holiday") = "holiday"%string
  /\ selectValue (onChange householdSelected "pension") = ""%string.
Proof.
  pose proof (selectValue_after_onChange householdSelected
                [household; holiday] "holiday" eq_refl) as Hfound.
  pose proof (selectValue_after_onChange householdSelected
                [household; holiday] "pension" eq_refl) as Hmissing.
  split.
  - apply Hfound; [discriminate |].
    exists holiday. split; [simpl; tauto | reflexivity].
  - apply Hmissing; [discriminate |].
    simpl. intros b [<- | [<- | []]]; discriminate.
Defined.

Lemma choice_then_effect_samples :
  exists b',
    react householdSelected (Chosen "pension") =
    {| budgets := Some [household; holiday]; selectedBudget := Some b' |}
    /\ In b' [household; holiday]
    /\ (Budget.id b' = "pension"%string
        \/ (forall x, In x [household; holiday] ->
                      Budget.id x <> "pension"%string)
           /\ b' = household).
Proof.
  exact (choice_then_effect_selects_from_list householdSelected household
           [holiday] "pension" eq_refl).
Defined.

(** Six bills: five rows and "+1 more bills". *)
Lemma rows_and_more_cover_six_bills :
  List.length (billRows periodFails tt (Some sixBills)) = 5%nat
  /\ moreBills (Some sixBills) = Some 1%nat
  /\ ~ (List.length sixBills <= 5)%nat.
Proof.
  destruct (rows_and_more_cover_bills unit periodFails tt sixBills)
    as (_ & Hrows & _ & Hmore & _).
  split; [exact Hrows | split; [reflexivity |]].
  intros Hle. apply Hmore in Hle. discriminate Hle.
Defined.

(** The header line with a utility that throws and with one that returns
    the first week of 2024. *)
Lemma currentPeriodInfo_line_samples :
  updateCurrentPeriodInfo periodFails tt dayAndMonth false ""
  = "Current period: Standard monthly cycle"%string
  /\ updateCurrentPeriodInfo (periodIs firstWeekOf2024) tt dayAndMonth false ""
     <> "Current period: Standard monthly cycle"%string.
Proof.
  split.
  - apply (proj2 (proj2 (currentPeriodInfo_line unit periodFails tt
                           dayAndMonth ""))).
    now exists "Invalid monthly cycle configuration"%string.
  - intros H.
    apply (proj2 (proj2 (currentPeriodInfo_line unit
                           (periodIs firstWeekOf2024) tt dayAndMonth "")))
      in H.
    destruct H as [err H]. discriminate H.
Defined.
